(** * Dota2 team match-id crawler: a shallow embedding of
      [Get team match ID/获取战队比赛编号.py]

    The script asks for a team name, resolves it to a team id through the
    OpenDota team list ([get_team_id]), fetches the matches of that team
    ([crawl_match_ids]) and writes their ids to a CSV file
    ([export_to_csv]); [main] sequences the three.

    The embedding keeps Python's dynamic typing: what [response.json()]
    returns is a [value], the operators the script applies to it ([in],
    subscription, [.lower()], truth testing) are total functions into an
    [outcome] that can raise, and the functions of the script run in a
    state-and-exception monad over the console, the log of the requests
    sent and the file system. A [string] holds the characters of a Python
    [str]; the case mapping, the whitespace class and the line terminator
    are the interpreter's and come with the environment. *)

From Stdlib Require Import ZArith String Ascii List Bool Lia.
From Stdlib Require Import DecimalString DecimalZ.
From Stdlib Require Import Floats.SpecFloat.
From stdpp Require Import gmap strings list fin_maps.

Set Warnings "-register-all".

Open Scope string_scope.
Open Scope Z_scope.

(** ** Python values and exceptions *)

(** The values [json.loads] builds: [None], [bool], [int] (unbounded),
    [float] (a binary64), [str], [list] and [dict] with string keys. A
    dictionary is kept as its item list; a key is looked up from the
    front. *)
Inductive value : Type :=
| VNone
| VBool (b : bool)
| VInt (z : Z)
| VFloat (f : spec_float)
| VStr (s : string)
| VList (l : list value)
| VDict (d : list (string * value)).

(** The exception classes the script meets. [RequestException] stands for
    the whole [requests.exceptions] hierarchy (connection errors,
    [HTTPError] of [raise_for_status], the JSON decoding error of
    [response.json()]); [OSError] is what opening the output file raises
    when the file system refuses it. *)
Inductive exn : Type :=
| RequestException
| KeyError
| IndexError
| ValueError
| TypeError
| AttributeError
| EOFError
| OSError.

Inductive outcome (A : Type) : Type :=
| Return (a : A)
| Raise (e : exn).
Arguments Return {A} a.
Arguments Raise {A} e.

Definition obind {A B} (o : outcome A) (k : A -> outcome B) : outcome B :=
  match o with
  | Return a => k a
  | Raise e => Raise e
  end.

Declare Scope py_scope.
Delimit Scope py_scope with py.
Notation "'let?' x ':=' o 'in' k" := (obind o (fun x => k))
  (at level 10, x name, o at level 100, k at level 200) : py_scope.

(** ** The operators of the interpreter *)

Module Py.

(** [bool(v)]. *)
Definition truthy (v : value) : bool :=
  match v with
  | VNone => false
  | VBool b => b
  | VInt z => negb (z =? 0)
  | VFloat f =>
      match f with
      | S754_zero _ => false
      | _ => true
      end
  | VStr s => negb (String.eqb s "")
  | VList l => match l with [] => false | _ => true end
  | VDict d => match d with [] => false | _ => true end
  end.

(** [isinstance(v, list)]. *)
Definition is_list (v : value) : bool :=
  match v with
  | VList _ => true
  | _ => false
  end.

(** [needle in haystack] on two strings: [needle] occurs as a contiguous
    run of [haystack]. *)
Fixpoint str_contains (needle haystack : string) : bool :=
  String.prefix needle haystack ||
  match haystack with
  | EmptyString => false
  | String _ rest => str_contains needle rest
  end.

(** [d[key]] / [key in d] on the items of a dictionary. *)
Fixpoint dict_get (d : list (string * value)) (key : string) : option value :=
  match d with
  | [] => None
  | (k, v) :: rest => if String.eqb k key then Some v else dict_get rest key
  end.

(** [key == v] for a string [key]: only an equal string compares equal. *)
Definition str_eq_value (key : string) (v : value) : bool :=
  match v with
  | VStr s => String.eqb key s
  | _ => false
  end.

(** [key in container] for a string [key]:
    membership of the key in a dictionary, of the element in a list, of
    the substring in a string; the other values are not iterable. *)
Definition contains (key : string) (container : value) : outcome bool :=
  match container with
  | VDict d => Return (if dict_get d key is Some _ then true else false)
  | VList l => Return (existsb (str_eq_value key) l)
  | VStr s => Return (str_contains key s)
  | VNone | VBool _ | VInt _ | VFloat _ => Raise TypeError
  end.

(** [container[key]] for a string [key]: a dictionary gives the value or
    [KeyError]; lists and strings want integer indices and the other
    values are not subscriptable, both [TypeError]. *)
Definition getitem (container : value) (key : string) : outcome value :=
  match container with
  | VDict d =>
      match dict_get d key with
      | Some v => Return v
      | None => Raise KeyError
      end
  | _ => Raise TypeError
  end.

End Py.

(** ** The search loop of [get_team_id] and the comprehension of
       [crawl_match_ids] *)

Section Search.

(** [str.lower]: the Unicode case mapping of the interpreter. *)
Variable lower : string -> string.

(** [v.lower()]: only strings have the method. *)
Definition py_lower (v : value) : outcome string :=
  match v with
  | VStr s => Return (lower s)
  | _ => Raise AttributeError
  end.

(** Lines 44-46:
<<
    for team in data:
        if 'name' in team and team_name.lower() in team['name'].lower():
            return team['team_id']
>>
    [Return None] is falling out of the loop. *)
Fixpoint find_team (team_name : string) (data : list value)
  : outcome (option value) :=
  match data with
  | [] => Return None
  | team :: rest =>
      (let? has_name := Py.contains "name" team in
       if has_name then
         let? name := Py.getitem team "name" in
         let? lname := py_lower name in
         if Py.str_contains (lower team_name) lname then
           let? team_id := Py.getitem team "team_id" in
           Return (Some team_id)
         else find_team team_name rest
       else find_team team_name rest)%py
  end.

End Search.

(** Line 94:
<<
      match_ids = [match['match_id'] for match in data if 'match_id' in match]
>> *)
Fixpoint collect_match_ids (data : list value) : outcome (list value) :=
  match data with
  | [] => Return []
  | match_ :: rest =>
      (let? has_id := Py.contains "match_id" match_ in
       if has_id then
         let? match_id := Py.getitem match_ "match_id" in
         let? ids := collect_match_ids rest in
         Return (match_id :: ids)
       else collect_match_ids rest)%py
  end.

(** ** The outside world *)

(** The two OpenDota addresses the script requests, and the page address
    [build_matches_url] formats for display. The team id is interpolated
    as it is, whatever value it is. *)
Inductive url : Type :=
| TeamsApi                              (* https://api.opendota.com/api/teams *)
| TeamMatchesApi (team_id : value)      (* https://api.opendota.com/api/teams/{team_id}/matches *)
| TeamMatchesPage (team_id : value).    (* https://www.opendota.com/teams/{team_id}/matches *)

(** What a request comes to: no connection, a status [raise_for_status]
    rejects, a body that is not JSON, or the value [response.json()]
    returned. [Json v] says that the decoding returned [v]; a body on which
    the decoder raises something else than its JSON error (an integer
    literal beyond the digit limit, nesting beyond the recursion limit) is
    not among the answers modelled. *)
Inductive response : Type :=
| ConnectionFailed
| BadStatus
| BodyNotJson
| Json (v : value).

Inductive platform : Type := Posix | Windows.

(** The limit CPython puts on the conversion between integers and decimal
    text ([sys.get_int_max_str_digits()]: 4300 unless configured, 0 for no
    limit): [str] of an integer with more digits raises [ValueError], and
    so does [int] of a longer literal. *)
Definition int_str_ok (limit : nat) (z : Z) : bool :=
  (limit =? 0)%nat || (Z.abs z <? 10 ^ Z.of_nat limit).

(** Every integer inside [v] is below [bound] in absolute value. *)
Fixpoint ints_below (bound : Z) (v : value) : bool :=
  match v with
  | VInt z => Z.abs z <? bound
  | VList l => forallb (ints_below bound) l
  | VDict d => forallb (fun item => ints_below bound (snd item)) d
  | VNone | VBool _ | VFloat _ | VStr _ => true
  end.

(** A value the JSON decoder can have returned under the limit: it reads
    integers with [int], so none of them is beyond it. *)
Definition decodable (limit : nat) (v : value) : bool :=
  (limit =? 0)%nat || ints_below (10 ^ Z.of_nat limit) v.

(** What [DataFrame(...)] followed by [to_csv(filename, ...)] comes to:
    the whole text goes into the file; or the file is opened, part of the
    text goes in and an exception is raised; or an exception is raised
    before any file is opened. *)
Inductive csv_outcome : Type :=
| CsvText (text : string)
| CsvBroken (written : string) (e : exn)
| CsvNoFile (e : exn).

(** [os.linesep], the line terminator [DataFrame.to_csv] writes. *)
Definition linesep (p : platform) : string :=
  match p with
  | Posix => String "010" EmptyString
  | Windows => String "013" (String "010" EmptyString)
  end.

(** Everything the script reads from outside: the interpreter's character
    functions, what pandas does with a column that is not made of integers
    only (dtype inference and the formatting of floats and objects are
    pandas's own), the platform, the line waiting on standard input
    ([None]: end of file), the answers of the remote service and whether
    the file system accepts a file of a given name; the digit limit of the
    interpreter and what [to_csv] has put in the file when the conversion
    of an integer beyond the limit stops it. The last field is the
    invariant of the decoder: what it returned holds no integer beyond the
    limit. *)
Record env : Type := {
  lower : string -> string;
  isspace : ascii -> bool;
  frame_to_csv_other : list value -> csv_outcome;
  os : platform;
  stdin_line : option string;
  remote : url -> response;
  writable : string -> bool;
  int_max_str_digits : nat;
  partial_csv : list Z -> string;
  json_within_limit :
    forall u v, remote u = Json v -> decodable int_max_str_digits v = true
}.

(** One constructor per [print] of the script (and the prompt of [input]),
    with the values it interpolates. *)
Inductive message : Type :=
| MsgTeamNotFound (team_name : string)      (* lines 48, 51 *)
| MsgTeamNetworkError (e : exn)             (* line 54 *)
| MsgTeamParseError (e : exn)               (* line 57 *)
| MsgNoMatchData                            (* line 97 *)
| MsgMatchNetworkError (e : exn)            (* line 100 *)
| MsgMatchParseError (e : exn)              (* line 103 *)
| MsgNothingToExport                        (* line 116 *)
| MsgExported (n : nat) (filename : string) (* line 129 *)
| MsgExportError (e : exn)                  (* line 131 *)
| MsgBanner                                 (* line 138 *)
| MsgRule                                   (* line 139 *)
| MsgPrompt                                 (* line 142 *)
| MsgEmptyName                              (* line 145 *)
| MsgProcessing (team_name : string)        (* line 148 *)
| MsgStep1                                  (* line 151 *)
| MsgNoTeamId                               (* line 155 *)
| MsgGotTeamId (team_id : value)            (* line 158 *)
| MsgStep2                                  (* line 161 *)
| MsgBuiltUrl (u : url)                     (* line 163 *)
| MsgStep3                                  (* line 166 *)
| MsgNoMatchIds                             (* line 170 *)
| MsgGotMatchIds (n : nat)                  (* line 173 *)
| MsgStep4                                  (* line 176 *)
| MsgDone.                                  (* line 179 *)

(** What a run changes: the console, the requests sent so far (oldest
    first) and the files of the working directory. *)
Record world : Type := {
  console : list message;
  requests_log : list url;
  files : gmap string string
}.

(** ** The monad of the script: state over [world], exceptions *)

Definition M (A : Type) : Type := world -> world * outcome A.

Definition ret {A} (a : A) : M A := fun w => (w, Return a).

Definition raise {A} (e : exn) : M A := fun w => (w, Raise e).

Definition bind {A B} (m : M A) (k : A -> M B) : M B :=
  fun w =>
    match m w with
    | (w', Return a) => k a w'
    | (w', Raise e) => (w', Raise e)
    end.

Definition lift {A} (o : outcome A) : M A := fun w => (w, o).

(** [try: body / except ...: handler]: [handlers e] is the clause that
    catches [e], if one does. The state reached when the exception was
    raised is kept. *)
Definition try_except {A} (body : M A) (handlers : exn -> option (M A)) : M A :=
  fun w =>
    match body w with
    | (w', Return a) => (w', Return a)
    | (w', Raise e) =>
        match handlers e with
        | Some handler => handler w'
        | None => (w', Raise e)
        end
    end.

Notation "'let*' x ':=' m 'in' k" := (bind m (fun x => k))
  (at level 10, x name, m at level 100, k at level 200) : py_scope.
Notation "m >> k" := (bind m (fun _ => k))
  (at level 100, k at level 200, right associativity) : py_scope.

(** The three ways the world changes. *)
Definition say (msg : message) (w : world) : world :=
  {| console := console w ++ [msg];
     requests_log := requests_log w;
     files := files w |}.

Definition sent (u : url) (w : world) : world :=
  {| console := console w;
     requests_log := requests_log w ++ [u];
     files := files w |}.

Definition stored (filename text : string) (w : world) : world :=
  {| console := console w;
     requests_log := requests_log w;
     files := <[filename := text]> (files w) |}.

Definition print (msg : message) : M unit :=
  fun w => (say msg w, Return tt).

(** [requests.get(url)], [raise_for_status()] and [response.json()]: one
    request is sent, and each of the three failures raises inside the
    [requests.exceptions] hierarchy. *)
Definition fetch_json (E : env) (u : url) : M value :=
  fun w =>
    let w' := sent u w in
    match remote E u with
    | Json v => (w', Return v)
    | ConnectionFailed | BadStatus | BodyNotJson => (w', Raise RequestException)
    end.

(** Opening [filename] for writing and writing [text]: the file is created
    or replaced, or the file system refuses and nothing changes. A file is
    known by the name it was opened with. *)
Definition write_file (E : env) (filename text : string) : M unit :=
  fun w =>
    if writable E filename then (stored filename text w, Return tt)
    else (w, Raise OSError).

(** [input(prompt)]: the prompt goes to the console, then a line is read. *)
Definition input (E : env) (prompt : message) : M string :=
  (print prompt >>
   match stdin_line E with
   | Some line => ret line
   | None => raise EOFError
   end)%py.

(** ** Strings: [str.strip] and the decimal form of an integer *)

Section Strip.

Variable space : ascii -> bool.

Fixpoint lstrip (s : string) : string :=
  match s with
  | EmptyString => EmptyString
  | String c rest => if space c then lstrip rest else s
  end.

Fixpoint rstrip (s : string) : string :=
  match s with
  | EmptyString => EmptyString
  | String c rest =>
      match rstrip rest with
      | EmptyString => if space c then EmptyString else String c EmptyString
      | kept => String c kept
      end
  end.

(** [s.strip()]. *)
Definition strip (s : string) : string := rstrip (lstrip s).

End Strip.

(** [str(z)] for an integer. *)
Definition str_of_int (z : Z) : string := NilZero.string_of_int (Z.to_int z).

(** ** pandas: a one-column frame and its CSV text *)

(** The integers of a list of values, when all of them are [int]s. *)
Fixpoint all_ints (vs : list value) : option (list Z) :=
  match vs with
  | [] => Some []
  | VInt z :: rest =>
      match all_ints rest with
      | Some zs => Some (z :: zs)
      | None => None
      end
  | _ :: _ => None
  end.

(** What [to_csv(index=False)] writes for the frame [{'match_id': ids}] of
    integers: the header line and one line per integer. *)
Fixpoint csv_rows (nl : string) (ids : list Z) : string :=
  match ids with
  | [] => ""
  | z :: rest => str_of_int z +:+ nl +:+ csv_rows nl rest
  end.

Definition csv_of_ints (nl : string) (ids : list Z) : string :=
  "match_id" +:+ nl +:+ csv_rows nl ids.

(** [pd.DataFrame({'match_id': match_ids})] followed by
    [df.to_csv(..., index=False, encoding='utf-8')], as an outcome. A
    column of integers within the digit limit is written whole. With an
    integer beyond the limit the frame is built and the file opened, and
    [str] of that integer raises [ValueError] while the rows are written.
    Other columns are pandas's. *)
Definition frame_to_csv (E : env) (match_ids : list value) : csv_outcome :=
  match all_ints match_ids with
  | Some ids =>
      if forallb (int_str_ok (int_max_str_digits E)) ids
      then CsvText (csv_of_ints (linesep (os E)) ids)
      else CsvBroken (partial_csv E ids) ValueError
  | None => frame_to_csv_other E match_ids
  end.

(** The frame and [df.to_csv(filename, ...)] on the file system. *)
Definition to_csv (E : env) (match_ids : list value) (filename : string)
  : M unit :=
  match frame_to_csv E match_ids with
  | CsvText text => write_file E filename text
  | CsvBroken written e => (write_file E filename written >> raise e)%py
  | CsvNoFile e => raise e
  end.

(** ** The functions of the script *)

(** The items a [for] loop or a comprehension visits in a list. *)
Definition list_items (data : value) : list value :=
  match data with
  | VList l => l
  | _ => []
  end.

Section Script.

Variable E : env.

(** Lines 25-58. The result is the [team_id] field as it is in the
    record, or [None]. *)
Definition get_team_id (team_name : string) : M value :=
  try_except
    (let* data := fetch_json E TeamsApi in
     if Py.truthy data && Py.is_list data then
       let* found := lift (find_team (lower E) team_name (list_items data)) in
       match found with
       | Some team_id => ret team_id
       | None => print (MsgTeamNotFound team_name) >> ret VNone
       end
     else
       print (MsgTeamNotFound team_name) >> ret VNone)%py
    (fun e =>
       match e with
       | RequestException =>
           Some (print (MsgTeamNetworkError e) >> ret VNone)%py
       | KeyError | IndexError | ValueError =>
           Some (print (MsgTeamParseError e) >> ret VNone)%py
       | _ => None
       end).

(** Lines 61-72. *)
Definition build_matches_url (team_id : value) : url :=
  TeamMatchesPage team_id.

(** Lines 75-104. *)
Definition crawl_match_ids (team_id : value) : M (list value) :=
  try_except
    (let* data := fetch_json E (TeamMatchesApi team_id) in
     if Py.truthy data && Py.is_list data then
       let* match_ids := lift (collect_match_ids (list_items data)) in
       ret match_ids
     else
       print MsgNoMatchData >> ret [])%py
    (fun e =>
       match e with
       | RequestException =>
           Some (print (MsgMatchNetworkError e) >> ret [])%py
       | KeyError | IndexError | ValueError =>
           Some (print (MsgMatchParseError e) >> ret [])%py
       | _ => None
       end).

(** The name of the output file, line 124. *)
Definition csv_filename (team_name : string) : string :=
  team_name +:+ "_match_ids.csv".

(** Lines 107-131. [except Exception] catches every class of [exn]. *)
Definition export_to_csv (match_ids : list value) (team_name : string) : M unit :=
  if negb (Py.truthy (VList match_ids)) then
    print MsgNothingToExport
  else
    try_except
      (let filename := csv_filename team_name in
       to_csv E match_ids filename >>
       print (MsgExported (length match_ids) filename))%py
      (fun e => Some (print (MsgExportError e))).

(** Lines 134-179. Each [return] ends the run with the messages printed
    so far. *)
Definition main : M unit :=
  (print MsgBanner >>
   print MsgRule >>
   let* line := input E MsgPrompt in
   let team_name := strip (isspace E) line in
   if negb (Py.truthy (VStr team_name)) then
     print MsgEmptyName
   else
     print (MsgProcessing team_name) >>
     print MsgStep1 >>
     let* team_id := get_team_id team_name in
     if negb (Py.truthy team_id) then
       print MsgNoTeamId
     else
       print (MsgGotTeamId team_id) >>
       print MsgStep2 >>
       let matches_url := build_matches_url team_id in
       print (MsgBuiltUrl matches_url) >>
       print MsgStep3 >>
       let* match_ids := crawl_match_ids team_id in
       if negb (Py.truthy (VList match_ids)) then
         print MsgNoMatchIds
       else
         print (MsgGotMatchIds (length match_ids)) >>
         print MsgStep4 >>
         export_to_csv match_ids team_name >>
         print MsgDone)%py.

End Script.



(** ** Reading the output file back *)

(** Line feed and carriage return. *)
Definition LF : ascii := "010"%char.
Definition CR : ascii := "013"%char.

(** The lines of a text: a line ends at a line feed, and a carriage return
    just before the line feed belongs to the terminator. Text after the
    last terminator, if any, is a last line. [cur] is the line read so
    far. *)
Fixpoint lines_from (cur : string) (s : string) : list string :=
  match s with
  | EmptyString => if String.eqb cur "" then [] else [cur]
  | String c rest =>
      if Ascii.eqb c LF then cur :: lines_from "" rest
      else
        match rest with
        | String c' rest' =>
            if Ascii.eqb c CR && Ascii.eqb c' LF
            then cur :: lines_from "" rest'
            else lines_from (cur +:+ String c EmptyString) rest
        | EmptyString => lines_from (cur +:+ String c EmptyString) rest
        end
  end.

Definition lines (s : string) : list string := lines_from "" s.

(** The integer a cell spells: an optional minus sign and decimal
    digits, nothing else. *)
Definition int_of_str (s : string) : option Z :=
  match NilZero.int_of_string s with
  | Some d => Some (Z.of_int d)
  | None => None
  end.

(** All the cells of a column, if each spells an integer. *)
Fixpoint ints_of_cells (cells : list string) : option (list Z) :=
  match cells with
  | [] => Some []
  | c :: rest =>
      match int_of_str c, ints_of_cells rest with
      | Some z, Some zs => Some (z :: zs)
      | _, _ => None
      end
  end.

(** Reading a one-column CSV file of integers: the header, then the
    rows. A row holding anything but one integer (a second column, say) is
    refused. *)
Definition read_csv (text : string) : option (string * list Z) :=
  match lines text with
  | [] => None
  | header :: rows =>
      match ints_of_cells rows with
      | Some ids => Some (header, ids)
      | None => None
      end
  end.

(** ** A concrete interpreter and world, for running the model *)

(** [str.lower] on ASCII text. *)
Definition ascii_lower_char (c : ascii) : ascii :=
  let n := nat_of_ascii c in
  if (Nat.leb 65 n && Nat.leb n 90)%bool then ascii_of_nat (n + 32) else c.

Fixpoint ascii_lower (s : string) : string :=
  match s with
  | EmptyString => EmptyString
  | String c rest => String (ascii_lower_char c) (ascii_lower rest)
  end.

(** [str.isspace] on the ASCII characters: tab to carriage return, the
    four separators 28-31 and the space. *)
Definition ascii_isspace (c : ascii) : bool :=
  let n := nat_of_ascii c in
  ((Nat.leb 9 n && Nat.leb n 13) || (Nat.leb 28 n && Nat.leb n 32))%bool.

(** A POSIX host: [typed] is the line on standard input, [service] the
    remote side and [can_write] the file system. The columns whose
    rendering is left to pandas do not occur in the runs below; this host
    answers them with an exception. Its interpreter runs with the digit
    limit switched off, so that every service can be plugged in. *)
Definition host (typed : option string) (service : url -> response)
    (can_write : string -> bool) : env :=
  {| lower := ascii_lower;
     isspace := ascii_isspace;
     frame_to_csv_other := fun _ => CsvNoFile TypeError;
     os := Posix;
     stdin_line := typed;
     remote := service;
     writable := can_write;
     int_max_str_digits := 0;
     partial_csv := fun _ => "match_id" +:+ linesep Posix;
     json_within_limit := fun _ _ _ => eq_refl |}.

(** A POSIX host with the digit limit of a stock interpreter, 4300, a
    file system that accepts every file and a service that is down. When
    the conversion of the first row stops [to_csv], the header is in the
    file. *)
Definition stock_host : env :=
  {| lower := ascii_lower;
     isspace := ascii_isspace;
     frame_to_csv_other := fun _ => CsvNoFile TypeError;
     os := Posix;
     stdin_line := None;
     remote := fun _ => BadStatus;
     writable := fun _ => true;
     int_max_str_digits := 4300;
     partial_csv := fun _ => "match_id" +:+ linesep Posix;
     json_within_limit :=
       fun u v (H : BadStatus = Json v) =>
         match H in (_ = r)
               return (match r with
                       | Json v' => decodable 4300 v' = true
                       | _ => True
                       end) with
         | eq_refl => I
         end |}.

Definition empty_world : world :=
  {| console := []; requests_log := []; files := ∅ |}.

(** ** Notions the statements use *)

(** The field [key] of a record of the remote service, if the record is a
    mapping and has it. *)
Definition field (record : value) (key : string) : option value :=
  match record with
  | VDict d => Py.dict_get d key
  | _ => None
  end.

(** A mapping. *)
Definition mapping (v : value) : bool :=
  match v with
  | VDict _ => true
  | _ => false
  end.

(** A mapping whose [name], when it has one, is a string. *)
Definition name_is_text (v : value) : bool :=
  mapping v &&
  match field v "name" with
  | Some (VStr _) | None => true
  | Some _ => false
  end.


(** The record has a [name] key. *)
Definition has_name (v : value) : bool :=
  match field v "name" with
  | Some _ => true
  | None => false
  end.

(** The match rule: the lower-cased [name] of the record contains the
    lower-cased input. *)
Definition name_matches (lower : string -> string) (team_name : string)
    (team : value) : bool :=
  match field team "name" with
  | Some (VStr name) => Py.str_contains (lower team_name) (lower name)
  | _ => false
  end.

(** What [to_csv] put into the file it opened, if it opened one. *)
Definition opened_text (o : csv_outcome) : option string :=
  match o with
  | CsvText text => Some text
  | CsvBroken written _ => Some written
  | CsvNoFile _ => None
  end.


(** A string that holds no line feed and no carriage return. *)
Definition one_line (s : string) : bool :=
  forallb (fun c => negb (Ascii.eqb c LF) && negb (Ascii.eqb c CR))
    (list_ascii_of_string s).

(** ** Sample data *)

(** A team record and a match record as the service sends them. *)
Definition team_of (name : string) (team_id : Z) : value :=
  VDict [("name", VStr name); ("team_id", VInt team_id)].

Definition match_of (match_id : Z) : value :=
  VDict [("match_id", VInt match_id)].

(** A service that answers the team list with [teams] and every match
    list with [matches]. *)
Definition service (teams matches : value) (u : url) : response :=
  match u with
  | TeamsApi => Json teams
  | TeamMatchesApi _ => Json matches
  | TeamMatchesPage _ => BadStatus
  end.

Definition always (b : bool) (filename : string) : bool := b.

(** Two teams whose names both contain "og". *)
Definition og_teams : list value := [team_of "OG" 2; team_of "OG.LDL" 3].

(** A match list with a record that has no [match_id]. *)
Definition sample_matches : list value :=
  [match_of 100; VDict [("foo", VInt 1)]; match_of 200].

Definition og_host (typed : option string) : env :=
  host typed (service (VList og_teams) (VList sample_matches)) (always true).

(** A team list whose first record has no [name]. *)
Definition nameless_first : list value :=
  [VDict [("team_id", VInt 5)]; team_of "OG" 2].

(** A team list whose matching record has no [team_id]. *)
Definition id_missing : list value :=
  [team_of "Team Secret" 111; VDict [("name", VStr "OG")]].

(** A team list with a record whose [name] is [null]. *)
Definition null_name : list value :=
  [VDict [("name", VNone); ("team_id", VInt 1)]; team_of "OG" 2].

(** A team whose id is zero. *)
Definition zero_id : list value := [team_of "OG" 0].

(** ** More sample data *)

(** A service that answers nothing: every request meets a bad status. *)
Definition service_down (u : url) : response := BadStatus.

(** A service whose team list works and whose match lists do not. *)
Definition matches_down (teams : value) (u : url) : response :=
  match u with
  | TeamsApi => Json teams
  | _ => ConnectionFailed
  end.

(** A team list with values that are no records behind the first match. *)
Definition junk_behind : list value :=
  [team_of "Alliance" 9; team_of "OG" 2; VInt 7; VNone;
   VDict [("name", VNone)]].

(** * Properties *)

(** ** Strings *)

Lemma prefix_empty (s : string) : String.prefix "" s = true.
Proof. destruct s; reflexivity. Qed.

Lemma str_contains_empty (s : string) : Py.str_contains "" s = true.
Proof. destruct s; reflexivity. Qed.

Lemma append_cons (c : ascii) (a q : string) :
  String c a +:+ q = String c (a +:+ q).
Proof. reflexivity. Qed.

Lemma append_nil (q : string) : "" +:+ q = q.
Proof. reflexivity. Qed.

Lemma prefix_app (a b : string) :
  String.prefix a b = true <-> exists q, b = a +:+ q.
Proof.
  revert b. induction a as [|c a IH]; intros b; simpl.
  - rewrite prefix_empty. split; [intros _; exists b; reflexivity | reflexivity].
  - destruct b as [|c' b]; simpl.
    + split; [discriminate | intros [q Hq]; discriminate].
    + destruct (Ascii.ascii_dec c c') as [->|Hne].
      * rewrite IH. split; intros [q Hq]; exists q;
          rewrite append_cons in *; congruence.
      * split; [discriminate | intros [q Hq]; rewrite append_cons in Hq; congruence].
Qed.

(** [str_contains] is the substring relation. *)
Lemma str_contains_spec (needle haystack : string) :
  Py.str_contains needle haystack = true <->
  exists p q, haystack = p +:+ needle +:+ q.
Proof.
  induction haystack as [|c h IH].
  - change (Py.str_contains needle "") with (String.prefix needle "" || false).
    rewrite orb_false_r, prefix_app. split.
    + intros [q Hq]. exists "", q. exact Hq.
    + intros [p [q Hq]]. destruct p; [exists q; exact Hq | discriminate].
  - change (Py.str_contains needle (String c h))
      with (String.prefix needle (String c h) || Py.str_contains needle h).
    rewrite orb_true_iff, prefix_app, IH. split.
    + intros [[q Hq] | [p [q Hq]]].
      * exists "", q. exact Hq.
      * exists (String c p), q. rewrite append_cons. congruence.
    + intros [p [q Hq]]. destruct p as [|c' p].
      * left. exists q. exact Hq.
      * right. exists p, q. rewrite append_cons in Hq. congruence.
Qed.

Lemma lstrip_blank (space : ascii -> bool) (s : string) :
  forallb space (list_ascii_of_string s) = true -> lstrip space s = "".
Proof.
  induction s as [|c s IH]; simpl; [reflexivity |].
  intros H. apply andb_true_iff in H as [Hc Hs]. rewrite Hc. auto.
Qed.

Lemma strip_blank (space : ascii -> bool) (s : string) :
  forallb space (list_ascii_of_string s) = true -> strip space s = "".
Proof. intros H. unfold strip. rewrite (lstrip_blank _ _ H). reflexivity. Qed.

(** ** The search loop *)

Section SearchFacts.

Variable lower : string -> string.
Variable team_name : string.

Lemma find_team_skip (team : value) (rest : list value) :
  name_is_text team = true ->
  name_matches lower team_name team = false ->
  find_team lower team_name (team :: rest) = find_team lower team_name rest.
Proof.
  unfold name_is_text, name_matches, mapping.
  destruct team as [| | | | |l|d]; simpl; try discriminate.
  destruct (Py.dict_get d "name") as [[| | | |name| |]|]; simpl;
    try discriminate; try reflexivity.
  intros _ ->. reflexivity.
Qed.

Lemma find_team_hit (team : value) (rest : list value) :
  name_matches lower team_name team = true ->
  find_team lower team_name (team :: rest) =
    match field team "team_id" with
    | Some team_id => Return (Some team_id)
    | None => Raise KeyError
    end.
Proof.
  unfold name_matches.
  destruct team as [| | | | |l|d]; simpl; try discriminate.
  destruct (Py.dict_get d "name") as [[| | | |name| |]|]; simpl;
    try discriminate.
  intros ->. destruct (Py.dict_get d "team_id"); reflexivity.
Qed.

(** The loop returns at the first record that matches. *)
Lemma find_team_first (teams : list value) (team : value) :
  forallb name_is_text teams = true ->
  List.find (name_matches lower team_name) teams = Some team ->
  find_team lower team_name teams =
    match field team "team_id" with
    | Some team_id => Return (Some team_id)
    | None => Raise KeyError
    end.
Proof.
  induction teams as [|t teams IH]; [discriminate |].
  intros Hok Hfind. apply andb_true_iff in Hok as [Ht Hts].
  cbn [List.find] in Hfind.
  destruct (name_matches lower team_name t) eqn:Hm.
  - injection Hfind as <-. apply find_team_hit, Hm.
  - rewrite (find_team_skip _ _ Ht Hm). apply IH; assumption.
Qed.

(** Without a matching record the loop falls through. *)
Lemma find_team_none (teams : list value) :
  forallb name_is_text teams = true ->
  List.find (name_matches lower team_name) teams = None ->
  find_team lower team_name teams = Return None.
Proof.
  induction teams as [|t teams IH]; [reflexivity |].
  intros Hok Hfind. apply andb_true_iff in Hok as [Ht Hts].
  cbn [List.find] in Hfind.
  destruct (name_matches lower team_name t) eqn:Hm; [discriminate |].
  rewrite (find_team_skip _ _ Ht Hm). apply IH; assumption.
Qed.

End SearchFacts.




(** ** The resolver *)

(** What [get_team_id] does with a non-empty list, in terms of its loop. *)
Lemma get_team_id_on_list (E : env) (w : world) (team_name : string)
    (teams : list value) :
  remote E TeamsApi = Json (VList teams) ->
  teams <> [] ->
  get_team_id E team_name w =
    match find_team (lower E) team_name teams with
    | Return (Some team_id) => (sent TeamsApi w, Return team_id)
    | Return None =>
        (say (MsgTeamNotFound team_name) (sent TeamsApi w), Return VNone)
    | Raise RequestException =>
        (say (MsgTeamNetworkError RequestException) (sent TeamsApi w), Return VNone)
    | Raise KeyError =>
        (say (MsgTeamParseError KeyError) (sent TeamsApi w), Return VNone)
    | Raise IndexError =>
        (say (MsgTeamParseError IndexError) (sent TeamsApi w), Return VNone)
    | Raise ValueError =>
        (say (MsgTeamParseError ValueError) (sent TeamsApi w), Return VNone)
    | Raise e => (sent TeamsApi w, Raise e)
    end.
Proof.
  intros Hremote Hne.
  unfold get_team_id, try_except, bind, fetch_json, lift. rewrite Hremote.
  destruct teams as [|t teams]; [contradiction |].
  cbn [Py.truthy Py.is_list andb list_items].
  destruct (find_team (lower E) team_name (t :: teams)) as [[tid|]|[]];
    reflexivity.
Qed.

Lemma find_some_cons {A} (f : A -> bool) (l : list A) (x : A) :
  List.find f l = Some x -> l <> [].
Proof. destruct l; [discriminate | discriminate]. Qed.


(** The resolver on a list of mappings with textual names: the first
    record that matches decides. *)
Lemma get_team_id_first (E : env) (w : world) (team_name : string)
    (teams : list value) (team : value) :
  remote E TeamsApi = Json (VList teams) ->
  forallb name_is_text teams = true ->
  List.find (name_matches (lower E) team_name) teams = Some team ->
  get_team_id E team_name w =
    match field team "team_id" with
    | Some team_id => (sent TeamsApi w, Return team_id)
    | None => (say (MsgTeamParseError KeyError) (sent TeamsApi w), Return VNone)
    end.
Proof.
  intros Hremote Hok Hfind.
  rewrite (get_team_id_on_list E w team_name teams Hremote
             (find_some_cons _ _ _ Hfind)).
  rewrite (find_team_first _ _ _ _ Hok Hfind).
  destruct (field team "team_id"); reflexivity.
Qed.



(** The end-to-end scenarios of the specification for the resolver:
    "secret" resolves to 111 in a list holding Team Secret, and "og" to 2,
    the first of the two matching teams. *)
Example resolve_secret :
  get_team_id
    (host None (service (VList [team_of "Team Secret" 111]) VNone) (always true))
    "secret" empty_world =
    (sent TeamsApi empty_world, Return (VInt 111)).
Proof. reflexivity. Qed.

Example resolve_og :
  get_team_id (og_host None) "og" empty_world =
    (sent TeamsApi empty_world, Return (VInt 2)).
Proof. reflexivity. Qed.

(** A record without [name] in front of the match is passed over: nothing
    is reported and the match is returned. *)
Lemma get_team_id_nameless_record_is_no_error :
  field (VDict [("team_id", VInt 5)]) "name" = None /\
  get_team_id (host None (service (VList nameless_first) VNone) (always true))
      "og" empty_world =
    (sent TeamsApi empty_world, Return (VInt 2)).
Proof. split; reflexivity. Qed.

(** C9, as the code has it. On a list of mappings with textual names, a
    record without [name] is passed over by the guard ['name' in team]; the
    first record whose name matches decides: without a [team_id] key the
    parse error is reported and [None] returned, with one its value is
    returned and nothing is reported. *)
Theorem get_team_id_missing_team_id (E : env) (w : world) (team_name : string)
    (teams : list value) (team : value) :
  remote E TeamsApi = Json (VList teams) ->
  forallb name_is_text teams = true ->
  List.find (name_matches (lower E) team_name) teams = Some team ->
  (field team "team_id" = None ->
   get_team_id E team_name w =
     (say (MsgTeamParseError KeyError) (sent TeamsApi w), Return VNone)) /\
  (forall team_id, field team "team_id" = Some team_id ->
   get_team_id E team_name w = (sent TeamsApi w, Return team_id)).
Proof.
  intros Hremote Hok Hfind.
  pose proof (get_team_id_first E w team_name teams team Hremote Hok Hfind) as H.
  split.
  - intros Hnone. rewrite Hnone in H. exact H.
  - intros team_id Hsome. rewrite Hsome in H. exact H.
Qed.

Lemma get_team_id_missing_team_id_witness :
  get_team_id (host None (service (VList id_missing) VNone) (always true))
      "og" empty_world =
    (say (MsgTeamParseError KeyError) (sent TeamsApi empty_world), Return VNone).
Proof.
  apply (get_team_id_missing_team_id
           (host None (service (VList id_missing) VNone) (always true))
           empty_world "og" id_missing (VDict [("name", VStr "OG")]));
    reflexivity.
Defined.

Lemma find_ext {A} (f g : A -> bool) (l : list A) :
  (forall x, In x l -> f x = g x) -> List.find f l = List.find g l.
Proof.
  induction l as [|x l IH]; simpl; [reflexivity |].
  intros H. rewrite (H x (or_introl eq_refl)).
  destruct (g x); [reflexivity | apply IH; auto].
Qed.

(** With the empty name every record that has a textual [name] matches. *)
Lemma name_matches_empty (lower : string -> string) (team : value) :
  lower "" = "" ->
  name_is_text team = true ->
  name_matches lower "" team = has_name team.
Proof.
  intros Hlower. unfold name_is_text, name_matches, has_name, mapping.
  destruct team; simpl; try discriminate.
  destruct (Py.dict_get d "name") as [[]|]; simpl; try discriminate;
    try reflexivity.
  intros _. rewrite Hlower. apply str_contains_empty.
Qed.

(** C10. Called with the empty string on a team list (mappings whose
    [name], when present, is a string), [get_team_id] returns the
    [team_id] of the first record that has a [name] key: the empty string
    is a substring of every name. Nothing is printed. *)
Theorem get_team_id_empty_name (E : env) (w : world) (teams : list value)
    (team team_id : value) :
  lower E "" = "" ->
  remote E TeamsApi = Json (VList teams) ->
  forallb name_is_text teams = true ->
  List.find has_name teams = Some team ->
  field team "team_id" = Some team_id ->
  get_team_id E "" w = (sent TeamsApi w, Return team_id).
Proof.
  intros Hlower Hremote Hok Hfind Hid.
  assert (List.find (name_matches (lower E) "") teams = Some team) as Hfind'.
  { rewrite <- Hfind. apply find_ext. intros x Hx.
    apply name_matches_empty; [exact Hlower |].
    exact (proj1 (forallb_forall _ _) Hok x Hx). }
  rewrite (get_team_id_first E w "" teams team Hremote Hok Hfind').
  rewrite Hid. reflexivity.
Qed.

Lemma get_team_id_empty_name_witness :
  get_team_id (host None (service (VList nameless_first) VNone) (always true))
      "" empty_world =
    (sent TeamsApi empty_world, Return (VInt 2)).
Proof.
  apply (get_team_id_empty_name
           (host None (service (VList nameless_first) VNone) (always true))
           empty_world nameless_first (team_of "OG" 2) (VInt 2));
    reflexivity.
Defined.

(** ** The lister *)

(** On mappings the comprehension keeps the [match_id] fields, in order. *)
Lemma collect_match_ids_mappings (matches : list value) :
  forallb mapping matches = true ->
  collect_match_ids matches =
    Return (omap (fun m => field m "match_id") matches).
Proof.
  induction matches as [|m matches IH]; [reflexivity |].
  intros H. apply andb_true_iff in H as [Hm Hms].
  destruct m; try discriminate.
  cbn [collect_match_ids Py.contains Py.getitem obind omap list_omap field].
  rewrite (IH Hms).
  destruct (Py.dict_get d "match_id"); reflexivity.
Qed.

(** C2. On a list of match records (mappings), [crawl_match_ids] returns
    exactly the [match_id] values of the records that have the field, in
    list order; the records without it are left out and no error is
    reported (an empty list is answered with the no-data message). *)
Theorem crawl_match_ids_fields (E : env) (w : world) (team_id : value)
    (matches : list value) :
  remote E (TeamMatchesApi team_id) = Json (VList matches) ->
  forallb mapping matches = true ->
  crawl_match_ids E team_id w =
    (match matches with
     | [] => say MsgNoMatchData (sent (TeamMatchesApi team_id) w)
     | _ :: _ => sent (TeamMatchesApi team_id) w
     end,
     Return (omap (fun m => field m "match_id") matches)).
Proof.
  intros Hremote Hmaps.
  unfold crawl_match_ids, try_except, bind, fetch_json, lift. rewrite Hremote.
  destruct matches as [|m matches]; [reflexivity |].
  cbn [Py.truthy Py.is_list andb list_items].
  rewrite (collect_match_ids_mappings _ Hmaps). reflexivity.
Qed.

Lemma crawl_match_ids_fields_witness :
  crawl_match_ids (og_host None) (VInt 2) empty_world =
    (sent (TeamMatchesApi (VInt 2)) empty_world, Return [VInt 100; VInt 200]).
Proof.
  apply (crawl_match_ids_fields (og_host None) empty_world (VInt 2)
           sample_matches); reflexivity.
Defined.

(** ** The orchestrator: the input guard and the resolver's result *)

(** C6. When the line typed is empty or made of whitespace only, the run
    prints the banner, the prompt and the empty-name message and returns:
    no request is sent and no file is touched. *)
Theorem main_blank_input (E : env) (w : world) (line : string) :
  stdin_line E = Some line ->
  forallb (isspace E) (list_ascii_of_string line) = true ->
  main E w =
    (say MsgEmptyName (say MsgPrompt (say MsgRule (say MsgBanner w))),
     Return tt) /\
  requests_log (fst (main E w)) = requests_log w /\
  files (fst (main E w)) = files w.
Proof.
  intros Hin Hblank.
  assert (main E w =
            (say MsgEmptyName (say MsgPrompt (say MsgRule (say MsgBanner w))),
             Return tt)) as Hrun.
  { unfold main, input, bind, print, ret. rewrite Hin.
    rewrite (strip_blank _ _ Hblank). reflexivity. }
  rewrite Hrun. repeat split; reflexivity.
Qed.

Lemma main_blank_input_witness :
  main (og_host (Some "   ")) empty_world =
    (say MsgEmptyName
       (say MsgPrompt (say MsgRule (say MsgBanner empty_world))),
     Return tt) /\
  requests_log (fst (main (og_host (Some "   ")) empty_world)) = [] /\
  files (fst (main (og_host (Some "   ")) empty_world)) = ∅.
Proof.
  apply (main_blank_input (og_host (Some "   ")) empty_world "   ");
    reflexivity.
Defined.

(** ** Which exceptions the loop and the comprehension raise *)

Lemma find_team_raises (lower : string -> string) (team_name : string)
    (data : list value) (e : exn) :
  find_team lower team_name data = Raise e ->
  e = TypeError \/ e = AttributeError \/ e = KeyError.
Proof.
  induction data as [|team data IH]; [discriminate |].
  cbn [find_team].
  destruct team as [| | | |s|l|d]; cbn [Py.contains Py.getitem obind];
    try (intros H; injection H as <-; auto; fail).
  - destruct (Py.str_contains "name" s); [| exact IH].
    intros H; injection H as <-; auto.
  - destruct (existsb (Py.str_eq_value "name") l); [| exact IH].
    intros H; injection H as <-; auto.
  - destruct (Py.dict_get d "name") as [name|]; [| exact IH].
    destruct name; cbn [py_lower obind];
      try (intros H; injection H as <-; auto; fail).
    destruct (Py.str_contains (lower team_name) (lower s)); [| exact IH].
    destruct (Py.dict_get d "team_id"); cbn [obind]; [discriminate |].
    intros H; injection H as <-; auto.
Qed.

(** Once the decoding has returned, only [TypeError] and [AttributeError]
    leave [get_team_id]. *)
Lemma get_team_id_escapes (E : env) (team_name : string) (w : world)
    (data : value) (e : exn) :
  remote E TeamsApi = Json data ->
  snd (get_team_id E team_name w) = Raise e ->
  e = TypeError \/ e = AttributeError.
Proof.
  intros Hremote.
  unfold get_team_id, try_except, bind, fetch_json, lift, print, ret.
  rewrite Hremote.
  destruct (Py.truthy data && Py.is_list data); [| discriminate].
  destruct (find_team (lower E) team_name (list_items data)) as [[tid|]|e']
    eqn:Hfind; try discriminate.
  destruct (find_team_raises _ _ _ _ Hfind) as [-> | [-> | ->]];
    cbn [snd]; [intros H; injection H as <-; auto .. | discriminate].
Qed.

Lemma collect_match_ids_raises (data : list value) (e : exn) :
  collect_match_ids data = Raise e -> e = TypeError.
Proof.
  induction data as [|m data IH]; [discriminate |].
  cbn [collect_match_ids].
  destruct m as [| | | |s|l|d]; cbn [Py.contains Py.getitem obind];
    try (intros H; injection H as <-; reflexivity).
  - destruct (Py.str_contains "match_id" s); [| exact IH].
    intros H; injection H as <-; reflexivity.
  - destruct (existsb (Py.str_eq_value "match_id") l); [| exact IH].
    intros H; injection H as <-; reflexivity.
  - destruct (Py.dict_get d "match_id") as [match_id|]; [| exact IH].
    destruct (collect_match_ids data) as [ids|e'] eqn:Hrest;
      cbn [obind]; [discriminate |].
    intros H; injection H as <-. apply IH. reflexivity.
Qed.

Lemma crawl_match_ids_log (E : env) (team_id : value) (w : world) :
  requests_log (fst (crawl_match_ids E team_id w)) =
    (requests_log w ++ [TeamMatchesApi team_id])%list.
Proof.
  unfold crawl_match_ids, try_except, bind, fetch_json, lift, print, ret.
  destruct (remote E (TeamMatchesApi team_id)) as [| | |data]; try reflexivity.
  destruct (Py.truthy data && Py.is_list data); [| reflexivity].
  destruct (collect_match_ids (list_items data)) as [ids|[]]; reflexivity.
Qed.

Lemma export_to_csv_log (E : env) (match_ids : list value)
    (team_name : string) (w : world) :
  requests_log (fst (export_to_csv E match_ids team_name w)) = requests_log w.
Proof.
  unfold export_to_csv, to_csv, try_except, bind, write_file, print, raise.
  destruct (negb (Py.truthy (VList match_ids))); [reflexivity |].
  destruct (frame_to_csv E match_ids) as [text|written e|e];
    [| | reflexivity];
    destruct (writable E (csv_filename team_name)); reflexivity.
Qed.


(** C7, where the code departs from it. A record whose [name] is [null]
    makes [.lower()] raise [AttributeError], a match list holding a number
    makes ['match_id' in match] raise [TypeError]; neither class is among
    the ones the two [except] clauses name, so both leave the function. *)
Theorem parse_errors_escape :
  get_team_id (host None (service (VList null_name) VNone) (always true))
      "og" empty_world =
    (sent TeamsApi empty_world, Raise AttributeError) /\
  crawl_match_ids (host None (service VNone (VList [VInt 1])) (always true))
      (VInt 2) empty_world =
    (sent (TeamMatchesApi (VInt 2)) empty_world, Raise TypeError).
Proof. split; reflexivity. Qed.

(** C8, where the code departs from it. The resolver returns the team
    identifier 0; [main] tests it with [not team_id], prints that no team
    id could be obtained and returns without asking for the matches. *)
Theorem main_halts_on_team_id_zero :
  let E := host (Some "og") (service (VList zero_id) (VList sample_matches))
             (always true) in
  get_team_id E "og" empty_world = (sent TeamsApi empty_world, Return (VInt 0)) /\
  main E empty_world =
    ({| console := [MsgBanner; MsgRule; MsgPrompt; MsgProcessing "og";
                    MsgStep1; MsgNoTeamId];
        requests_log := [TeamsApi];
        files := ∅ |},
     Return tt).
Proof. split; reflexivity. Qed.

(** ** The CSV text and its reading *)

Lemma append_assoc (a b c : string) : (a +:+ b) +:+ c = a +:+ b +:+ c.
Proof.
  induction a as [|x a IH]; [reflexivity |].
  rewrite !append_cons, IH. reflexivity.
Qed.

Lemma lines_from_step (cur : string) (c : ascii) (rest : string) :
  Ascii.eqb c LF = false ->
  Ascii.eqb c CR = false ->
  lines_from cur (String c rest) = lines_from (cur +:+ String c "") rest.
Proof.
  intros Hlf Hcr. cbn [lines_from]. rewrite Hlf, Hcr.
  destruct rest; reflexivity.
Qed.

(** A terminated line is split off whole, on both platforms. *)
Lemma lines_from_line (p : platform) (s cur rest : string) :
  one_line s = true ->
  lines_from cur (s +:+ linesep p +:+ rest) =
    (cur +:+ s) :: lines_from "" rest.
Proof.
  revert cur. induction s as [|c s IH]; intros cur Hs.
  - rewrite append_nil.
    assert (cur +:+ "" = cur) as ->.
    { clear. induction cur as [|x cur IH]; [reflexivity |].
      rewrite append_cons, IH. reflexivity. }
    destruct p; reflexivity.
  - unfold one_line in Hs. cbn [list_ascii_of_string forallb] in Hs.
    apply andb_true_iff in Hs as [Hc Hs].
    apply andb_true_iff in Hc as [Hlf Hcr].
    apply negb_true_iff in Hlf, Hcr.
    rewrite append_cons, (lines_from_step _ _ _ Hlf Hcr), (IH _ Hs).
    rewrite append_assoc. reflexivity.
Qed.

Lemma string_of_uint_one_line (d : Decimal.uint) :
  one_line (NilEmpty.string_of_uint d) = true.
Proof. induction d; [reflexivity | exact IHd ..]. Qed.

Lemma str_of_int_one_line (z : Z) : one_line (str_of_int z) = true.
Proof.
  unfold str_of_int, NilZero.string_of_int, NilZero.string_of_uint.
  destruct (Z.to_int z) as [d|d]; destruct d;
    first [reflexivity | apply (string_of_uint_one_line (_ d))
          | apply string_of_uint_one_line ].
Qed.

Lemma int_of_str_of_int (z : Z) : int_of_str (str_of_int z) = Some z.
Proof.
  unfold int_of_str, str_of_int.
  rewrite NilZero.isi.
  - rewrite DecimalZ.of_to. reflexivity.
  - destruct z as [|p|p]; cbn [Z.to_int]; try discriminate.
    intros H. injection H as H. exact (DecimalPos.Unsigned.to_uint_nonnil p H).
  - destruct z as [|p|p]; cbn [Z.to_int]; try discriminate.
    intros H. injection H as H. exact (DecimalPos.Unsigned.to_uint_nonnil p H).
Qed.

Lemma ints_of_cells_str (ids : list Z) :
  ints_of_cells (map str_of_int ids) = Some ids.
Proof.
  induction ids as [|z ids IH]; [reflexivity |].
  cbn [map ints_of_cells]. rewrite int_of_str_of_int, IH. reflexivity.
Qed.

Lemma lines_csv_rows (p : platform) (ids : list Z) :
  lines_from "" (csv_rows (linesep p) ids) = map str_of_int ids.
Proof.
  induction ids as [|z ids IH]; [reflexivity |].
  cbn [csv_rows map].
  rewrite (lines_from_line p _ "" _ (str_of_int_one_line z)), IH.
  reflexivity.
Qed.

(** The text is the header line followed by one line per integer, each
    the decimal form of the integer and nothing more. *)
Lemma lines_csv_of_ints (p : platform) (ids : list Z) :
  lines (csv_of_ints (linesep p) ids) = "match_id" :: map str_of_int ids.
Proof.
  unfold lines, csv_of_ints.
  rewrite (lines_from_line p "match_id" "" _ eq_refl), lines_csv_rows.
  reflexivity.
Qed.

Lemma read_csv_of_ints (p : platform) (ids : list Z) :
  read_csv (csv_of_ints (linesep p) ids) = Some ("match_id", ids).
Proof.
  unfold read_csv. rewrite lines_csv_of_ints, ints_of_cells_str. reflexivity.
Qed.

(** ** The exporter *)

Lemma export_to_csv_empty (E : env) (w : world) (team_name : string) :
  export_to_csv E [] team_name w = (say MsgNothingToExport w, Return tt).
Proof. reflexivity. Qed.

(** The exporter on a non-empty list, by what pandas does with it. *)
Lemma export_to_csv_run (E : env) (w : world) (match_ids : list value)
    (team_name : string) :
  match_ids <> [] ->
  export_to_csv E match_ids team_name w =
    match frame_to_csv E match_ids with
    | CsvText text =>
        if writable E (csv_filename team_name) then
          (say (MsgExported (length match_ids) (csv_filename team_name))
             (stored (csv_filename team_name) text w), Return tt)
        else (say (MsgExportError OSError) w, Return tt)
    | CsvBroken written e =>
        if writable E (csv_filename team_name) then
          (say (MsgExportError e) (stored (csv_filename team_name) written w),
           Return tt)
        else (say (MsgExportError OSError) w, Return tt)
    | CsvNoFile e => (say (MsgExportError e) w, Return tt)
    end.
Proof.
  intros Hne. destruct match_ids as [|v vs]; [contradiction |].
  unfold export_to_csv, to_csv, try_except, bind, write_file, print, raise.
  cbn [Py.truthy negb].
  destruct (frame_to_csv E (v :: vs)) as [text|written e|e];
    [| | reflexivity];
    destruct (writable E (csv_filename team_name)); reflexivity.
Qed.

(** The frame of a list of integers within the digit limit is their CSV
    text. *)
Lemma frame_to_csv_ints (E : env) (match_ids : list value) (ids : list Z) :
  all_ints match_ids = Some ids ->
  forallb (int_str_ok (int_max_str_digits E)) ids = true ->
  frame_to_csv E match_ids = CsvText (csv_of_ints (linesep (os E)) ids).
Proof. intros H Hok. unfold frame_to_csv. rewrite H, Hok. reflexivity. Qed.

(** The exporter on a non-empty list of integers within the digit limit. *)
Lemma export_to_csv_ints (E : env) (w : world) (match_ids : list value)
    (ids : list Z) (team_name : string) :
  match_ids <> [] ->
  all_ints match_ids = Some ids ->
  forallb (int_str_ok (int_max_str_digits E)) ids = true ->
  export_to_csv E match_ids team_name w =
    if writable E (csv_filename team_name) then
      (say (MsgExported (length match_ids) (csv_filename team_name))
         (stored (csv_filename team_name)
            (csv_of_ints (linesep (os E)) ids) w),
       Return tt)
    else (say (MsgExportError OSError) w, Return tt).
Proof.
  intros Hne Hints Hok.
  rewrite (export_to_csv_run E w match_ids team_name Hne).
  rewrite (frame_to_csv_ints E match_ids ids Hints Hok). reflexivity.
Qed.

(** Whatever the list holds, the exporter leaves the files alone or stores
    under the name of the team what [to_csv] put into the file it opened. *)
Lemma export_to_csv_files (E : env) (w : world) (match_ids : list value)
    (team_name : string) :
  files (fst (export_to_csv E match_ids team_name w)) =
    match match_ids, opened_text (frame_to_csv E match_ids) with
    | _ :: _, Some text =>
        if writable E (csv_filename team_name)
        then <[csv_filename team_name := text]> (files w)
        else files w
    | _, _ => files w
    end.
Proof.
  destruct match_ids as [|v vs]; [reflexivity |].
  rewrite (export_to_csv_run E w (v :: vs) team_name); [| discriminate].
  destruct (frame_to_csv E (v :: vs)) as [text|written e|e];
    [| | reflexivity];
    cbn [opened_text]; destruct (writable E (csv_filename team_name));
    reflexivity.
Qed.


(** ** The files along a run *)

Lemma get_team_id_files (E : env) (team_name : string) (w : world) :
  files (fst (get_team_id E team_name w)) = files w.
Proof.
  unfold get_team_id, try_except, bind, fetch_json, lift, print, ret.
  destruct (remote E TeamsApi) as [| | |data]; try reflexivity.
  destruct (Py.truthy data && Py.is_list data); [| reflexivity].
  destruct (find_team (lower E) team_name (list_items data)) as [[tid|]|[]];
    reflexivity.
Qed.

Lemma crawl_match_ids_files (E : env) (team_id : value) (w : world) :
  files (fst (crawl_match_ids E team_id w)) = files w.
Proof.
  unfold crawl_match_ids, try_except, bind, fetch_json, lift, print, ret.
  destruct (remote E (TeamMatchesApi team_id)) as [| | |data]; try reflexivity.
  destruct (Py.truthy data && Py.is_list data); [| reflexivity].
  destruct (collect_match_ids (list_items data)) as [ids|[]]; reflexivity.
Qed.





(** Small integers are within every limit of three digits or more, and
    the power of ten with one digit more than the limit is beyond it. *)
Lemma int_str_ok_small (limit : nat) (z : Z) :
  (3 <= limit)%nat -> Z.abs z < 1000 -> int_str_ok limit z = true.
Proof.
  intros Hlimit Hz. unfold int_str_ok. apply orb_true_iff. right.
  apply Z.ltb_lt. eapply Z.lt_le_trans; [exact Hz |].
  change 1000 with (10 ^ 3). apply Z.pow_le_mono_r; lia.
Qed.

Lemma int_str_ok_power (limit : nat) :
  (limit <> 0)%nat -> int_str_ok limit (10 ^ Z.of_nat limit) = false.
Proof.
  intros Hlimit. unfold int_str_ok.
  rewrite (proj2 (Nat.eqb_neq limit 0) Hlimit). cbn [orb].
  rewrite Z.abs_eq by (apply Z.pow_nonneg; lia).
  apply Z.ltb_irrefl.
Qed.

(** Two ways in which the read-back fails. The file system refuses the
    file: nothing is there to read. The interpreter has its stock digit
    limit and the integer has 4301 digits: [str] of it raises inside
    [to_csv], the export error is reported, and the file read back holds
    the header and no row. *)
Lemma export_read_back_fails :
  (let E := host None service_down (always false) in
   [VInt 100] <> [] /\
   all_ints [VInt 100] = Some [100] /\
   files (fst (export_to_csv E [VInt 100] "og" empty_world))
     !! "og_match_ids.csv" = None) /\
  ([VInt (10 ^ 4300)] <> [] /\
   all_ints [VInt (10 ^ 4300)] = Some [10 ^ 4300] /\
   writable stock_host (csv_filename "og") = true /\
   export_to_csv stock_host [VInt (10 ^ 4300)] "og" empty_world =
     (say (MsgExportError ValueError)
        (stored "og_match_ids.csv" ("match_id" +:+ linesep Posix) empty_world),
      Return tt) /\
   read_csv ("match_id" +:+ linesep Posix) = Some ("match_id", [])).
Proof.
  split.
  - cbv zeta. split; [discriminate |]. split; reflexivity.
  - split; [discriminate |]. split; [reflexivity |]. split; [reflexivity |].
    split; [| reflexivity].
    rewrite export_to_csv_run; [| discriminate].
    assert (frame_to_csv stock_host [VInt (10 ^ 4300)] =
              CsvBroken ("match_id" +:+ linesep Posix) ValueError) as ->.
    { unfold frame_to_csv. cbn [all_ints forallb].
      change (int_str_ok (int_max_str_digits stock_host) (10 ^ 4300))
        with (int_str_ok 4300 (10 ^ Z.of_nat 4300)).
      rewrite int_str_ok_power by discriminate. reflexivity. }
    reflexivity.
Qed.

(** C4, as the code has it. Exporting a non-empty sequence of integers
    within the digit limit of the interpreter, when the file system
    accepts the file, leaves under [<team_name>_match_ids.csv] a text
    whose lines are the header [match_id] and then the decimal form of
    each integer, in order and with nothing else on the line; reading it
    back gives the header and the same integers. *)
Theorem export_read_back (E : env) (w : world) (match_ids : list value)
    (ids : list Z) (team_name : string) :
  match_ids <> [] ->
  all_ints match_ids = Some ids ->
  forallb (int_str_ok (int_max_str_digits E)) ids = true ->
  writable E (csv_filename team_name) = true ->
  exists text : string,
    files (fst (export_to_csv E match_ids team_name w))
      !! (team_name +:+ "_match_ids.csv") = Some text /\
    lines text = "match_id" :: map str_of_int ids /\
    read_csv text = Some ("match_id", ids).
Proof.
  intros Hne Hints Hok Hwr.
  exists (csv_of_ints (linesep (os E)) ids).
  rewrite (export_to_csv_ints E w match_ids ids team_name Hne Hints Hok), Hwr.
  split; [apply lookup_insert_eq |].
  split; [apply lines_csv_of_ints | apply read_csv_of_ints].
Qed.

Lemma export_read_back_witness :
  exists text : string,
    files (fst (export_to_csv stock_host [VInt 100; VInt 200] "og"
                  empty_world))
      !! "og_match_ids.csv" = Some text /\
    lines text = ["match_id"; "100"; "200"] /\
    read_csv text = Some ("match_id", [100; 200]).
Proof.
  apply (export_read_back stock_host empty_world [VInt 100; VInt 200]
           [100; 200] "og"); [discriminate | reflexivity | | reflexivity].
  cbn [forallb].
  rewrite !(int_str_ok_small (int_max_str_digits stock_host))
    by (cbn; lia).
  reflexivity.
Defined.

(** C5. Exporting the same non-empty list of match ids under the same team
    name twice leaves the files exactly as one export does: what the first
    export stored is replaced, never added to. For integers within the
    digit limit and a file the file system accepts, the content after the
    second export is the CSV text of the list, once. *)
Theorem export_to_csv_twice (E : env) (w : world) (match_ids : list value)
    (team_name : string) :
  match_ids <> [] ->
  let export := export_to_csv E match_ids team_name in
  files (fst ((export >> export)%py w)) = files (fst (export w)) /\
  (forall ids : list Z,
     all_ints match_ids = Some ids ->
     forallb (int_str_ok (int_max_str_digits E)) ids = true ->
     writable E (csv_filename team_name) = true ->
     files (fst ((export >> export)%py w)) !! csv_filename team_name =
       Some (csv_of_ints (linesep (os E)) ids)).
Proof.
  intros Hne export.
  assert (files (fst ((export >> export)%py w)) = files (fst (export w)))
    as Htwice.
  { subst export. unfold bind.
    pose proof (export_to_csv_files E w match_ids team_name) as H1.
    destruct (export_to_csv E match_ids team_name w) as [w1 [[]|e]];
      cbn [fst] in H1 |- *; [| reflexivity].
    rewrite export_to_csv_files, H1.
    destruct match_ids as [|v vs]; [contradiction |].
    destruct (opened_text (frame_to_csv E (v :: vs))) as [text|];
      [| reflexivity].
    destruct (writable E (csv_filename team_name)); [| reflexivity].
    apply insert_insert_eq. }
  split; [exact Htwice |].
  intros ids Hints Hok Hwr. rewrite Htwice. subst export.
  rewrite (export_to_csv_ints E w match_ids ids team_name Hne Hints Hok), Hwr.
  apply lookup_insert_eq.
Qed.

Lemma export_to_csv_twice_witness :
  let export := export_to_csv (og_host None) [VInt 100; VInt 200] "og" in
  files (fst ((export >> export)%py empty_world)) =
    files (fst (export empty_world)) /\
  files (fst ((export >> export)%py empty_world)) !! "og_match_ids.csv" =
    Some (csv_of_ints (linesep Posix) [100; 200]).
Proof.
  destruct (export_to_csv_twice (og_host None) empty_world
              [VInt 100; VInt 200] "og") as [Hsame Htext];
    [discriminate |].
  split; [exact Hsame | exact (Htext [100; 200] eq_refl eq_refl eq_refl)].
Defined.

(** ** Whole runs *)

(** The third end-to-end scenario of the specification: of the matches
    100, a record without [match_id], and 200, the file holds the rows 100
    and 200, in that order. *)
Example run_og :
  main (og_host (Some " og ")) empty_world =
    ({| console := [MsgBanner; MsgRule; MsgPrompt; MsgProcessing "og";
                    MsgStep1; MsgGotTeamId (VInt 2); MsgStep2;
                    MsgBuiltUrl (TeamMatchesPage (VInt 2)); MsgStep3;
                    MsgGotMatchIds 2; MsgStep4;
                    MsgExported 2 "og_match_ids.csv"; MsgDone];
        requests_log := [TeamsApi; TeamMatchesApi (VInt 2)];
        files := {[ "og_match_ids.csv" := csv_of_ints (linesep Posix) [100; 200] ]} |},
     Return tt).
Proof. reflexivity. Qed.

(** The fourth: an empty match list ends the run without a file. *)
Example run_no_matches :
  main (host (Some "og") (service (VList og_teams) (VList [])) (always true))
    empty_world =
    ({| console := [MsgBanner; MsgRule; MsgPrompt; MsgProcessing "og";
                    MsgStep1; MsgGotTeamId (VInt 2); MsgStep2;
                    MsgBuiltUrl (TeamMatchesPage (VInt 2)); MsgStep3;
                    MsgNoMatchData; MsgNoMatchIds];
        requests_log := [TeamsApi; TeamMatchesApi (VInt 2)];
        files := ∅ |},
     Return tt).
Proof. reflexivity. Qed.

(** * Further properties of the script *)

(** ** The resolver: failures, effects, what decides the result *)

(** X1. When the request for the team list fails (no connection, a
    rejected status, a body that is not JSON), [get_team_id] reports the
    network error and returns [None]. *)
Theorem get_team_id_network_failure (E : env) (team_name : string) (w : world) :
  (forall v, remote E TeamsApi <> Json v) ->
  get_team_id E team_name w =
    (say (MsgTeamNetworkError RequestException) (sent TeamsApi w), Return VNone).
Proof.
  intros Hfail.
  unfold get_team_id, try_except, bind, fetch_json, print, ret.
  destruct (remote E TeamsApi) as [| | |v] eqn:Hremote; try reflexivity.
  destruct (Hfail v eq_refl).
Qed.

Lemma get_team_id_network_failure_witness :
  get_team_id (host None service_down (always true)) "og" empty_world =
    (say (MsgTeamNetworkError RequestException) (sent TeamsApi empty_world),
     Return VNone).
Proof.
  apply (get_team_id_network_failure (host None service_down (always true))
           "og" empty_world).
  intros v. discriminate.
Defined.

(** X2. When the decoded team list is anything but a non-empty list
    ([null], a number, a string, a mapping, the empty list),
    [get_team_id] reports that the team was not found and returns
    [None]; nothing is raised. *)
Theorem get_team_id_not_a_list (E : env) (team_name : string) (w : world)
    (data : value) :
  remote E TeamsApi = Json data ->
  (forall t ts, data <> VList (t :: ts)) ->
  get_team_id E team_name w =
    (say (MsgTeamNotFound team_name) (sent TeamsApi w), Return VNone).
Proof.
  intros Hremote Hshape.
  unfold get_team_id, try_except, bind, fetch_json, print, ret, lift.
  rewrite Hremote.
  destruct data as [|b|z|f|s|l|d]; cbn [Py.truthy Py.is_list andb];
    try reflexivity.
  - destruct b; reflexivity.
  - destruct (negb (z =? 0)); reflexivity.
  - destruct f; reflexivity.
  - destruct (negb (String.eqb s "")); reflexivity.
  - destruct l as [|t ts]; [reflexivity | destruct (Hshape t ts eq_refl)].
  - destruct d; reflexivity.
Qed.

Lemma get_team_id_not_a_list_witness :
  get_team_id
    (host None (service (VDict [("error", VStr "rate limit")]) VNone)
       (always true))
    "og" empty_world =
    (say (MsgTeamNotFound "og") (sent TeamsApi empty_world), Return VNone).
Proof.
  apply (get_team_id_not_a_list
           (host None (service (VDict [("error", VStr "rate limit")]) VNone)
              (always true))
           "og" empty_world (VDict [("error", VStr "rate limit")]));
    [reflexivity | intros t ts; discriminate].
Defined.

Lemma find_none_existsb {A} (f : A -> bool) (l : list A) :
  existsb f l = false -> List.find f l = None.
Proof.
  induction l as [|x l IH]; simpl; [reflexivity |].
  destruct (f x); simpl; [discriminate | exact IH].
Qed.

(** X3. On a list of mappings with textual names none of which contains
    the input (both lower-cased), [get_team_id] reports that the team was
    not found and returns [None]. *)
Theorem get_team_id_no_match (E : env) (team_name : string) (w : world)
    (teams : list value) :
  remote E TeamsApi = Json (VList teams) ->
  forallb name_is_text teams = true ->
  existsb (name_matches (lower E) team_name) teams = false ->
  get_team_id E team_name w =
    (say (MsgTeamNotFound team_name) (sent TeamsApi w), Return VNone).
Proof.
  intros Hremote Hok Hnone.
  destruct teams as [|t ts].
  - apply (get_team_id_not_a_list E team_name w (VList []) Hremote).
    intros t ts. discriminate.
  - rewrite (get_team_id_on_list E w team_name (t :: ts) Hremote);
      [| discriminate].
    rewrite (find_team_none _ _ _ Hok (find_none_existsb _ _ Hnone)).
    reflexivity.
Qed.

Lemma get_team_id_no_match_witness :
  get_team_id (og_host None) "liquid" empty_world =
    (say (MsgTeamNotFound "liquid") (sent TeamsApi empty_world), Return VNone).
Proof.
  apply (get_team_id_no_match (og_host None) "liquid" empty_world og_teams);
    reflexivity.
Defined.

(** X4. Once [response.json()] has returned, whatever the value,
    [get_team_id] returns a value or raises [TypeError] or
    [AttributeError]: a missing key is caught, and the test of the value
    and the loop over it can raise nothing else. *)
Theorem get_team_id_outcome (E : env) (team_name : string) (w : world)
    (data : value) :
  remote E TeamsApi = Json data ->
  (exists v, snd (get_team_id E team_name w) = Return v) \/
  snd (get_team_id E team_name w) = Raise TypeError \/
  snd (get_team_id E team_name w) = Raise AttributeError.
Proof.
  intros Hremote.
  destruct (snd (get_team_id E team_name w)) as [v|e] eqn:Hout.
  - left. exists v. reflexivity.
  - right.
    destruct (get_team_id_escapes E team_name w data e Hremote Hout)
      as [-> | ->]; [left | right]; reflexivity.
Qed.

Lemma get_team_id_outcome_witness :
  (exists v,
     snd (get_team_id (host None (service (VList null_name) VNone) (always true))
            "og" empty_world) = Return v) \/
  snd (get_team_id (host None (service (VList null_name) VNone) (always true))
         "og" empty_world) = Raise TypeError \/
  snd (get_team_id (host None (service (VList null_name) VNone) (always true))
         "og" empty_world) = Raise AttributeError.
Proof.
  apply (get_team_id_outcome
           (host None (service (VList null_name) VNone) (always true))
           "og" empty_world (VList null_name)).
  reflexivity.
Defined.

(** X5. Whatever the service answers and whether it returns or raises,
    [get_team_id] sends exactly one request, for the team list, leaves
    the files alone and prints at most one message. *)
Theorem get_team_id_effects (E : env) (team_name : string) (w : world) :
  requests_log (fst (get_team_id E team_name w)) =
    (requests_log w ++ [TeamsApi])%list /\
  files (fst (get_team_id E team_name w)) = files w /\
  (console (fst (get_team_id E team_name w)) = console w \/
   exists msg,
     console (fst (get_team_id E team_name w)) = (console w ++ [msg])%list).
Proof.
  split; [| split; [apply get_team_id_files |]];
    unfold get_team_id, try_except, bind, fetch_json, lift, print, ret;
    (destruct (remote E TeamsApi) as [| | |data];
     [| | | destruct (Py.truthy data && Py.is_list data);
            [destruct (find_team (lower E) team_name (list_items data))
               as [[tid|]|[]] |]]);
    cbn [fst say sent requests_log console];
    first [reflexivity | left; reflexivity | right; eexists; reflexivity].
Qed.

Lemma find_team_lower_only (lower : string -> string) (a b : string)
    (data : list value) :
  lower a = lower b ->
  find_team lower a data = find_team lower b data.
Proof.
  intros Hab. induction data as [|team data IH]; [reflexivity |].
  cbn [find_team]. rewrite Hab, IH. reflexivity.
Qed.

(** X6. The resolver is case-insensitive in its input: two team names
    with the same lower-cased form get the same result (value or
    exception) from the same answer of the service. *)
Theorem get_team_id_case_insensitive (E : env) (a b : string) (w : world) :
  lower E a = lower E b ->
  snd (get_team_id E a w) = snd (get_team_id E b w).
Proof.
  intros Hab.
  unfold get_team_id, try_except, bind, fetch_json, lift, print, ret.
  destruct (remote E TeamsApi) as [| | |data]; try reflexivity.
  destruct (Py.truthy data && Py.is_list data); [| reflexivity].
  rewrite (find_team_lower_only (lower E) a b _ Hab).
  destruct (find_team (lower E) b (list_items data)) as [[tid|]|[]];
    reflexivity.
Qed.

Lemma get_team_id_case_insensitive_witness :
  snd (get_team_id (og_host None) "OG.ldl" empty_world) =
  snd (get_team_id (og_host None) "og.LDL" empty_world).
Proof.
  apply (get_team_id_case_insensitive (og_host None) "OG.ldl" "og.LDL"
           empty_world).
  reflexivity.
Defined.

Lemma find_team_prefix (lower : string -> string) (team_name : string)
    (pre rest : list value) :
  forallb name_is_text pre = true ->
  existsb (name_matches lower team_name) pre = false ->
  find_team lower team_name (pre ++ rest) = find_team lower team_name rest.
Proof.
  induction pre as [|t pre IH]; [reflexivity |].
  cbn [forallb existsb app]. intros Hok Hno.
  apply andb_true_iff in Hok as [Ht Hpre].
  apply orb_false_iff in Hno as [Hm Hno].
  rewrite (find_team_skip _ _ _ _ Ht Hm). apply IH; assumption.
Qed.

(** X7. The loop stops at the first match: when the records in front of
    it are mappings with textual names that do not match, the [team_id]
    of the first matching record is returned whatever follows it in the
    list, values that are no records included. *)
Theorem get_team_id_stops_at_first_match (E : env) (team_name : string)
    (w : world) (pre post : list value) (team team_id : value) :
  remote E TeamsApi = Json (VList (pre ++ team :: post)) ->
  forallb name_is_text pre = true ->
  existsb (name_matches (lower E) team_name) pre = false ->
  name_matches (lower E) team_name team = true ->
  field team "team_id" = Some team_id ->
  get_team_id E team_name w = (sent TeamsApi w, Return team_id).
Proof.
  intros Hremote Hok Hno Hm Hid.
  rewrite (get_team_id_on_list E w team_name _ Hremote);
    [| destruct pre; discriminate].
  rewrite (find_team_prefix _ _ _ _ Hok Hno), (find_team_hit _ _ _ _ Hm), Hid.
  reflexivity.
Qed.

Lemma get_team_id_stops_at_first_match_witness :
  get_team_id (host None (service (VList junk_behind) VNone) (always true))
    "og" empty_world =
    (sent TeamsApi empty_world, Return (VInt 2)).
Proof.
  apply (get_team_id_stops_at_first_match
           (host None (service (VList junk_behind) VNone) (always true))
           "og" empty_world [team_of "Alliance" 9]
           [VInt 7; VNone; VDict [("name", VNone)]] (team_of "OG" 2) (VInt 2));
    reflexivity.
Defined.

(** ** The lister: failures, effects *)

(** X8. When the request for the matches fails, [crawl_match_ids]
    reports the network error and returns the empty list. *)
Theorem crawl_match_ids_network_failure (E : env) (team_id : value)
    (w : world) :
  (forall v, remote E (TeamMatchesApi team_id) <> Json v) ->
  crawl_match_ids E team_id w =
    (say (MsgMatchNetworkError RequestException)
       (sent (TeamMatchesApi team_id) w), Return []).
Proof.
  intros Hfail.
  unfold crawl_match_ids, try_except, bind, fetch_json, print, ret.
  destruct (remote E (TeamMatchesApi team_id)) as [| | |v] eqn:Hremote;
    try reflexivity.
  destruct (Hfail v eq_refl).
Qed.

Lemma crawl_match_ids_network_failure_witness :
  crawl_match_ids (host None (matches_down (VList og_teams)) (always true))
    (VInt 2) empty_world =
    (say (MsgMatchNetworkError RequestException)
       (sent (TeamMatchesApi (VInt 2)) empty_world), Return []).
Proof.
  apply (crawl_match_ids_network_failure
           (host None (matches_down (VList og_teams)) (always true))
           (VInt 2) empty_world).
  intros v. discriminate.
Defined.

(** X9. When the decoded answer is anything but a non-empty list,
    [crawl_match_ids] reports that there is no match data and returns the
    empty list. *)
Theorem crawl_match_ids_no_data (E : env) (team_id : value) (w : world)
    (data : value) :
  remote E (TeamMatchesApi team_id) = Json data ->
  (forall m ms, data <> VList (m :: ms)) ->
  crawl_match_ids E team_id w =
    (say MsgNoMatchData (sent (TeamMatchesApi team_id) w), Return []).
Proof.
  intros Hremote Hshape.
  unfold crawl_match_ids, try_except, bind, fetch_json, print, ret, lift.
  rewrite Hremote.
  destruct data as [|b|z|f|s|l|d]; cbn [Py.truthy Py.is_list andb];
    try reflexivity.
  - destruct b; reflexivity.
  - destruct (negb (z =? 0)); reflexivity.
  - destruct f; reflexivity.
  - destruct (negb (String.eqb s "")); reflexivity.
  - destruct l as [|m ms]; [reflexivity | destruct (Hshape m ms eq_refl)].
  - destruct d; reflexivity.
Qed.

Lemma crawl_match_ids_no_data_witness :
  crawl_match_ids
    (host None (service VNone (VDict [("error", VStr "Not Found")]))
       (always true))
    (VInt 2) empty_world =
    (say MsgNoMatchData (sent (TeamMatchesApi (VInt 2)) empty_world),
     Return []).
Proof.
  apply (crawl_match_ids_no_data
           (host None (service VNone (VDict [("error", VStr "Not Found")]))
              (always true))
           (VInt 2) empty_world (VDict [("error", VStr "Not Found")]));
    [reflexivity | intros m ms; discriminate].
Defined.

(** X10. Once [response.json()] has returned, whatever the value,
    [crawl_match_ids] has sent exactly one request, for the matches of the
    team it was given, leaves the files alone, and prints nothing or the
    no-data message: its parse-error message is not printed, because the
    comprehension reads [match_id] only where the key test succeeded. *)
Theorem crawl_match_ids_effects (E : env) (team_id : value) (w : world)
    (data : value) :
  remote E (TeamMatchesApi team_id) = Json data ->
  requests_log (fst (crawl_match_ids E team_id w)) =
    (requests_log w ++ [TeamMatchesApi team_id])%list /\
  files (fst (crawl_match_ids E team_id w)) = files w /\
  (console (fst (crawl_match_ids E team_id w)) = console w \/
   console (fst (crawl_match_ids E team_id w)) =
     (console w ++ [MsgNoMatchData])%list).
Proof.
  intros Hremote.
  split; [apply crawl_match_ids_log |].
  split; [apply crawl_match_ids_files |].
  unfold crawl_match_ids, try_except, bind, fetch_json, lift, print, ret.
  rewrite Hremote.
  destruct (Py.truthy data && Py.is_list data); [| right; reflexivity].
  destruct (collect_match_ids (list_items data)) as [ids|e] eqn:Hcollect;
    [left; reflexivity |].
  rewrite (collect_match_ids_raises _ _ Hcollect). left. reflexivity.
Qed.

Lemma crawl_match_ids_effects_witness :
  requests_log (fst (crawl_match_ids (og_host None) (VInt 2) empty_world)) =
    [TeamMatchesApi (VInt 2)] /\
  files (fst (crawl_match_ids (og_host None) (VInt 2) empty_world)) = ∅ /\
  (console (fst (crawl_match_ids (og_host None) (VInt 2) empty_world)) = [] \/
   console (fst (crawl_match_ids (og_host None) (VInt 2) empty_world)) =
     [MsgNoMatchData]).
Proof.
  apply (crawl_match_ids_effects (og_host None) (VInt 2) empty_world
           (VList sample_matches)).
  reflexivity.
Defined.

Lemma collect_match_ids_length (data ids : list value) :
  collect_match_ids data = Return ids -> (length ids <= length data)%nat.
Proof.
  revert ids. induction data as [|m data IH]; intros ids.
  - intros H. injection H as <-. reflexivity.
  - cbn [collect_match_ids].
    destruct (Py.contains "match_id" m) as [[|]|e]; cbn [obind];
      [| intros H; apply IH in H; cbn [length]; lia | discriminate].
    destruct (Py.getitem m "match_id") as [v|e]; cbn [obind];
      [| discriminate].
    destruct (collect_match_ids data) as [rest|e]; cbn [obind];
      [| discriminate].
    intros H. injection H as <-. cbn [length].
    specialize (IH rest eq_refl). lia.
Qed.

(** X11. Once [response.json()] has returned, whatever the value,
    [crawl_match_ids] returns a list or raises [TypeError], and a list it
    returns is never longer than the list that was decoded. *)
Theorem crawl_match_ids_outcome (E : env) (team_id : value) (w : world)
    (data : value) :
  remote E (TeamMatchesApi team_id) = Json data ->
  (exists ids, snd (crawl_match_ids E team_id w) = Return ids /\
               (length ids <= length (list_items data))%nat) \/
  snd (crawl_match_ids E team_id w) = Raise TypeError.
Proof.
  intros Hremote.
  unfold crawl_match_ids, try_except, bind, fetch_json, lift, print, ret.
  rewrite Hremote.
  destruct (Py.truthy data && Py.is_list data);
    [| left; exists []; split; [reflexivity | cbn [length]; lia]].
  destruct (collect_match_ids (list_items data)) as [ids|e] eqn:Hcollect.
  - left. exists ids. split;
      [reflexivity | exact (collect_match_ids_length _ _ Hcollect)].
  - right. rewrite (collect_match_ids_raises _ _ Hcollect). reflexivity.
Qed.

Lemma crawl_match_ids_outcome_witness :
  (exists ids,
     snd (crawl_match_ids (og_host None) (VInt 2) empty_world) = Return ids /\
     (length ids <= 3)%nat) \/
  snd (crawl_match_ids (og_host None) (VInt 2) empty_world) = Raise TypeError.
Proof.
  apply (crawl_match_ids_outcome (og_host None) (VInt 2) empty_world
           (VList sample_matches)).
  reflexivity.
Defined.

(** ** The exporter: what it never does *)

(** X12. [export_to_csv] never raises: whatever the list holds, whatever
    pandas does with it and whether or not the file system accepts the
    file, it returns after printing exactly one message, and it sends no
    request. *)
Theorem export_to_csv_never_raises (E : env) (match_ids : list value)
    (team_name : string) (w : world) :
  snd (export_to_csv E match_ids team_name w) = Return tt /\
  requests_log (fst (export_to_csv E match_ids team_name w)) = requests_log w /\
  exists msg,
    console (fst (export_to_csv E match_ids team_name w)) =
      (console w ++ [msg])%list.
Proof.
  split; [| split; [apply export_to_csv_log |]];
    unfold export_to_csv, to_csv, try_except, bind, write_file, print, raise;
    (destruct (negb (Py.truthy (VList match_ids)));
     [| destruct (frame_to_csv E match_ids) as [text|written e|e];
        [destruct (writable E (csv_filename team_name))
        |destruct (writable E (csv_filename team_name)) |]]);
    first [reflexivity | eexists; reflexivity].
Qed.

(** ** The orchestrator *)

(** X15. When standard input is at its end, [input] raises [EOFError]
    and [main] does not catch it: the run ends with that exception after
    the banner and the prompt, with no request sent and no file
    touched. *)
Theorem main_end_of_input (E : env) (w : world) :
  stdin_line E = None ->
  main E w =
    (say MsgPrompt (say MsgRule (say MsgBanner w)), Raise EOFError).
Proof.
  intros Hin. unfold main, input, bind, print, raise. rewrite Hin.
  reflexivity.
Qed.

Lemma main_end_of_input_witness :
  main (og_host None) empty_world =
    (say MsgPrompt (say MsgRule (say MsgBanner empty_world)), Raise EOFError).
Proof. apply (main_end_of_input (og_host None) empty_world). reflexivity. Defined.





(** ** Whole runs on well-formed answers *)

(** A run whose input line is not blank, stage by stage. *)
Lemma main_stages (E : env) (w : world) (line : string) :
  stdin_line E = Some line ->
  strip (isspace E) line <> "" ->
  main E w =
    let team_name := strip (isspace E) line in
    match get_team_id E team_name
            (say MsgStep1
               (say (MsgProcessing team_name)
                  (say MsgPrompt (say MsgRule (say MsgBanner w))))) with
    | (w1, Raise e) => (w1, Raise e)
    | (w1, Return team_id) =>
        if Py.truthy team_id then
          match crawl_match_ids E team_id
                  (say MsgStep3
                     (say (MsgBuiltUrl (build_matches_url team_id))
                        (say MsgStep2 (say (MsgGotTeamId team_id) w1)))) with
          | (w2, Raise e) => (w2, Raise e)
          | (w2, Return []) => (say MsgNoMatchIds w2, Return tt)
          | (w2, Return (v :: vs)) =>
              match export_to_csv E (v :: vs) team_name
                      (say MsgStep4
                         (say (MsgGotMatchIds (length (v :: vs))) w2)) with
              | (w3, Return _) => (say MsgDone w3, Return tt)
              | (w3, Raise e) => (w3, Raise e)
              end
          end
        else (say MsgNoTeamId w1, Return tt)
    end.
Proof.
  intros Hline Hname. cbv zeta.
  unfold main, input, bind, print, ret. rewrite Hline.
  cbn [Py.truthy]. rewrite (proj2 (String.eqb_neq _ _) Hname). cbn [negb].
  destruct (get_team_id E (strip (isspace E) line) _) as [w1 [team_id|e]];
    [| reflexivity].
  destruct (Py.truthy team_id); cbn [negb]; [| reflexivity].
  destruct (crawl_match_ids E team_id _) as [w2 [[|v vs]|e]]; reflexivity.
Qed.

(** Two worlds with the same console, requests and files are equal. *)
Lemma world_eq (a b : world) :
  console a = console b ->
  requests_log a = requests_log b ->
  files a = files b ->
  a = b.
Proof. destruct a, b. cbn. intros -> -> ->. reflexivity. Qed.

Lemma dict_get_below (bound : Z) (d : list (string * value)) (key : string)
    (v : value) :
  forallb (fun item => ints_below bound (snd item)) d = true ->
  Py.dict_get d key = Some v ->
  ints_below bound v = true.
Proof.
  induction d as [|[k x] d IH]; [discriminate |].
  cbn [forallb Py.dict_get snd]. intros H Hget.
  apply andb_true_iff in H as [Hx Hd].
  destruct (String.eqb k key); [injection Hget as <-; exact Hx | auto].
Qed.

(** The [match_id]s read out of a decoded list are within the digit
    limit. *)
Lemma decoded_match_ids_ok (limit : nat) (matches : list value)
    (ids : list Z) :
  decodable limit (VList matches) = true ->
  omap (fun m => field m "match_id") matches = map VInt ids ->
  forallb (int_str_ok limit) ids = true.
Proof.
  unfold decodable, int_str_ok.
  destruct (limit =? 0)%nat; cbn [orb].
  - intros _ _. induction ids; [reflexivity | exact IHids].
  - cbn [ints_below]. revert ids.
    induction matches as [|m ms IH]; intros ids Hbelow Hids.
    + destruct ids; [reflexivity | discriminate].
    + cbn [forallb] in Hbelow. apply andb_true_iff in Hbelow as [Hm Hms].
      cbn [omap list_omap] in Hids.
      destruct (field m "match_id") as [v|] eqn:Hfield; [| auto].
      destruct ids as [|z ids]; [discriminate |].
      cbn [map] in Hids. injection Hids as -> Hids.
      cbn [forallb]. rewrite (IH ids Hms Hids), andb_true_r.
      destruct m; try discriminate. cbn [field ints_below] in *.
      exact (dict_get_below _ _ _ _ Hm Hfield).
Qed.

Lemma all_ints_map (ids : list Z) : all_ints (map VInt ids) = Some ids.
Proof.
  induction ids as [|z ids IH]; [reflexivity |].
  cbn [map all_ints]. rewrite IH. reflexivity.
Qed.

(** X19. The successful run. The line typed, stripped, is not empty; the
    team list is made of mappings with textual names and the first one
    matching has a non-zero integer [team_id]; the matches of that team are
    mappings whose [match_id]s are integers, at least one; the file system
    accepts the file. Then the run sends the two requests, stores under
    [<team_name>_match_ids.csv] the CSV text of those match ids in list
    order, prints its progress lines and returns. *)
Theorem main_exports_first_match (E : env) (w : world) (line : string)
    (teams matches : list value) (team : value) (z : Z) (ids : list Z) :
  stdin_line E = Some line ->
  strip (isspace E) line <> "" ->
  remote E TeamsApi = Json (VList teams) ->
  forallb name_is_text teams = true ->
  List.find (name_matches (lower E) (strip (isspace E) line)) teams = Some team ->
  field team "team_id" = Some (VInt z) ->
  z <> 0 ->
  remote E (TeamMatchesApi (VInt z)) = Json (VList matches) ->
  forallb mapping matches = true ->
  omap (fun m => field m "match_id") matches = map VInt ids ->
  ids <> [] ->
  writable E (csv_filename (strip (isspace E) line)) = true ->
  main E w =
    let team_name := strip (isspace E) line in
    ({| console :=
          (console w ++
           [MsgBanner; MsgRule; MsgPrompt; MsgProcessing team_name; MsgStep1;
            MsgGotTeamId (VInt z); MsgStep2;
            MsgBuiltUrl (TeamMatchesPage (VInt z)); MsgStep3;
            MsgGotMatchIds (length ids); MsgStep4;
            MsgExported (length ids) (csv_filename team_name); MsgDone])%list;
        requests_log :=
          (requests_log w ++ [TeamsApi; TeamMatchesApi (VInt z)])%list;
        files :=
          <[csv_filename team_name := csv_of_ints (linesep (os E)) ids]>
            (files w) |},
     Return tt).
Proof.
  intros Hline Hname Hteams Hok Hfind Hid Hz Hmatches Hmaps Hids Hne Hwr.
  rewrite (main_stages E w line Hline Hname). cbv zeta.
  rewrite (get_team_id_first E _ _ teams team Hteams Hok Hfind), Hid.
  cbn [Py.truthy]. rewrite (proj2 (Z.eqb_neq z 0) Hz). cbn [negb].
  rewrite (crawl_match_ids_fields E _ (VInt z) matches Hmatches Hmaps), Hids.
  destruct ids as [|i ids]; [contradiction |].
  destruct matches as [|m ms]; [discriminate |].
  change (map VInt (i :: ids)) with (VInt i :: map VInt ids).
  cbv beta iota.
  rewrite (export_to_csv_ints E _ (VInt i :: map VInt ids) (i :: ids) _
             ltac:(discriminate) (all_ints_map (i :: ids))
             (decoded_match_ids_ok _ _ _
                (json_within_limit E _ _ Hmatches) Hids)), Hwr.
  f_equal. unfold build_matches_url.
  apply world_eq; cbn [console requests_log files say sent stored length];
    rewrite ?length_map; repeat rewrite <- app_assoc; reflexivity.
Qed.

Lemma main_exports_first_match_witness :
  main (og_host (Some " og ")) empty_world =
    ({| console := [MsgBanner; MsgRule; MsgPrompt; MsgProcessing "og";
                    MsgStep1; MsgGotTeamId (VInt 2); MsgStep2;
                    MsgBuiltUrl (TeamMatchesPage (VInt 2)); MsgStep3;
                    MsgGotMatchIds 2; MsgStep4;
                    MsgExported 2 "og_match_ids.csv"; MsgDone];
        requests_log := [TeamsApi; TeamMatchesApi (VInt 2)];
        files := <["og_match_ids.csv" := csv_of_ints (linesep Posix) [100; 200]]> ∅ |},
     Return tt).
Proof.
  apply (main_exports_first_match (og_host (Some " og ")) empty_world " og "
           og_teams sample_matches (team_of "OG" 2) 2 [100; 200]);
    first [reflexivity | discriminate].
Defined.

(** X20. A run whose team list (mappings with textual names) holds no
    matching name prints the not-found message of the resolver, then that
    no team id was obtained, and returns: one request was sent, for the
    team list, and no file is touched. *)
Theorem main_team_not_found (E : env) (w : world) (line : string)
    (teams : list value) :
  stdin_line E = Some line ->
  strip (isspace E) line <> "" ->
  remote E TeamsApi = Json (VList teams) ->
  forallb name_is_text teams = true ->
  existsb (name_matches (lower E) (strip (isspace E) line)) teams = false ->
  main E w =
    let team_name := strip (isspace E) line in
    ({| console :=
          (console w ++
           [MsgBanner; MsgRule; MsgPrompt; MsgProcessing team_name; MsgStep1;
            MsgTeamNotFound team_name; MsgNoTeamId])%list;
        requests_log := (requests_log w ++ [TeamsApi])%list;
        files := files w |},
     Return tt).
Proof.
  intros Hline Hname Hteams Hok Hnone.
  rewrite (main_stages E w line Hline Hname). cbv zeta.
  rewrite (get_team_id_no_match E _ _ teams Hteams Hok Hnone).
  cbn [Py.truthy]. f_equal.
  apply world_eq; cbn [console requests_log files say sent];
    repeat rewrite <- app_assoc; reflexivity.
Qed.

Lemma main_team_not_found_witness :
  main (og_host (Some "liquid")) empty_world =
    ({| console := [MsgBanner; MsgRule; MsgPrompt; MsgProcessing "liquid";
                    MsgStep1; MsgTeamNotFound "liquid"; MsgNoTeamId];
        requests_log := [TeamsApi];
        files := ∅ |},
     Return tt).
Proof.
  apply (main_team_not_found (og_host (Some "liquid")) empty_world "liquid"
           og_teams); first [reflexivity | discriminate].
Defined.

(** X21. After a resolved team (non-zero integer id), a failed request
    for its matches and a list of records none of which has a [match_id]
    end the run the same way: the last line printed says that no match id
    was obtained, the run returns, both requests were sent and no file is
    touched. *)
Theorem main_no_match_ids (E : env) (w : world) (line : string)
    (teams : list value) (team : value) (z : Z) :
  stdin_line E = Some line ->
  strip (isspace E) line <> "" ->
  remote E TeamsApi = Json (VList teams) ->
  forallb name_is_text teams = true ->
  List.find (name_matches (lower E) (strip (isspace E) line)) teams = Some team ->
  field team "team_id" = Some (VInt z) ->
  z <> 0 ->
  ((forall v, remote E (TeamMatchesApi (VInt z)) <> Json v) \/
   exists matches,
     remote E (TeamMatchesApi (VInt z)) = Json (VList matches) /\
     forallb mapping matches = true /\
     omap (fun m => field m "match_id") matches = []) ->
  snd (main E w) = Return tt /\
  (exists said, console (fst (main E w)) = (said ++ [MsgNoMatchIds])%list) /\
  requests_log (fst (main E w)) =
    (requests_log w ++ [TeamsApi; TeamMatchesApi (VInt z)])%list /\
  files (fst (main E w)) = files w.
Proof.
  intros Hline Hname Hteams Hok Hfind Hid Hz Hlister.
  rewrite (main_stages E w line Hline Hname). cbv zeta.
  rewrite (get_team_id_first E _ _ teams team Hteams Hok Hfind), Hid.
  cbn [Py.truthy]. rewrite (proj2 (Z.eqb_neq z 0) Hz). cbn [negb].
  destruct Hlister as [Hfail | [matches [Hmatches [Hmaps Hnone]]]].
  - rewrite (crawl_match_ids_network_failure E (VInt z) _ Hfail).
    cbn [fst snd console requests_log files say sent].
    repeat split; [eexists; reflexivity |].
    rewrite <- app_assoc. reflexivity.
  - rewrite (crawl_match_ids_fields E _ (VInt z) matches Hmatches Hmaps), Hnone.
    destruct matches; cbn [fst snd console requests_log files say sent];
      (repeat split; [eexists; reflexivity |]);
      rewrite <- app_assoc; reflexivity.
Qed.

Lemma main_no_match_ids_witness :
  snd (main (host (Some "og") (matches_down (VList og_teams)) (always true))
         empty_world) = Return tt /\
  (exists said,
     console (fst (main (host (Some "og") (matches_down (VList og_teams))
                           (always true)) empty_world)) =
       (said ++ [MsgNoMatchIds])%list) /\
  requests_log (fst (main (host (Some "og") (matches_down (VList og_teams))
                             (always true)) empty_world)) =
    [TeamsApi; TeamMatchesApi (VInt 2)] /\
  files (fst (main (host (Some "og") (matches_down (VList og_teams))
                      (always true)) empty_world)) = ∅.
Proof.
  apply (main_no_match_ids
           (host (Some "og") (matches_down (VList og_teams)) (always true))
           empty_world "og" og_teams (team_of "OG" 2) 2);
    try first [reflexivity | discriminate].
  left. intros v. discriminate.
Defined.
